(** * upgrade_fbx: a shallow embedding of src/tools/upgrade_fbx.cpp

    The program is a straight-line sequence of calls into the FBX SDK.
    The SDK is opaque: it is modelled as a record of oracles ([toolkit])
    that answer each call from the history of calls made so far.  Every
    call the program makes is recorded, in order, as an [event] in the
    log of the [world]; console output is recorded as [EPrint] events. *)

From Stdlib Require Import String List ZArith Lia.
Import ListNotations.
Open Scope list_scope.

(** ** SDK objects and the calls the program makes *)

Definition handle := nat.

(** The kinds of SDK objects the program creates. *)
Inductive kind := KManager | KIOSettings | KImporter | KScene | KExporter.

Inductive event :=
| EManagerCreate (r : option handle)          (* FbxManager::Create() *)
| ECreate (k : kind) (h : handle) (owner : handle)
                                             (* Fbx*::Create(sdkManager, ...) *)
| ESetIOSettings (m ios : handle)            (* sdkManager->SetIOSettings(ios) *)
| EImporterInit (h : handle) (path : string) (ios : handle) (ok : bool)
                                             (* importer->Initialize(path, -1, ios) *)
| EExporterInit (h : handle) (path : string) (ios : handle) (ok : bool)
                                             (* exporter->Initialize(path, -1, ios) *)
| EErrorString (h : handle) (s : string)     (* h->GetStatus().GetErrorString() *)
| EImport (imp sc : handle) (ok : bool)      (* importer->Import(scene) *)
| EExport (exp sc : handle) (ok : bool)      (* exporter->Export(scene) *)
| EDestroy (h : handle)                      (* h->Destroy() *)
| EPrint (line : string).                    (* std::cout << ... << std::endl *)

(** The opaque SDK: each oracle sees the calls made so far. *)
Record toolkit := {
  tk_manager_ok : list event -> bool;
  tk_importer_init : list event -> string -> bool;
  tk_exporter_init : list event -> string -> bool;
  tk_error_string : list event -> handle -> string;
  tk_import : list event -> bool;
  tk_export : list event -> bool
}.

Record world := { fresh : nat; log : list event }.

Definition init_world : world := {| fresh := 1; log := [] |}.

(** ** A state monad over the world *)

Definition M (A : Type) := world -> A * world.

Definition ret {A} (a : A) : M A := fun w => (a, w).
Definition bind {A B} (m : M A) (f : A -> M B) : M B :=
  fun w => let (a, w') := m w in f a w'.

Notation "x <- m ; k" := (bind m (fun x => k))
  (at level 61, m at next level, right associativity).
Notation "m ;; k" := (bind m (fun _ => k))
  (at level 61, right associativity).

Definition emit (e : event) : M unit :=
  fun w => (tt, {| fresh := fresh w; log := log w ++ [e] |}).

Definition alloc : M handle :=
  fun w => (fresh w, {| fresh := S (fresh w); log := log w |}).

Definition history : M (list event) := fun w => (log w, w).

Section Calls.
Variable tk : toolkit.

Definition print (s : string) : M unit := emit (EPrint s).

(** [FbxManager::Create()]: may return null. *)
Definition FbxManager_Create : M (option handle) :=
  hs <- history;
  if tk_manager_ok tk hs then
    h <- alloc; emit (EManagerCreate (Some h));; ret (Some h)
  else emit (EManagerCreate None);; ret None.

(** [FbxXxx::Create(sdkManager, ...)]: an object owned by the manager. *)
Definition FbxObject_Create (k : kind) (mgr : handle) : M handle :=
  h <- alloc; emit (ECreate k h mgr);; ret h.

Definition SetIOSettings (mgr ios : handle) : M unit :=
  emit (ESetIOSettings mgr ios).

Definition Importer_Initialize (imp : handle) (path : string) (ios : handle)
  : M bool :=
  hs <- history;
  let ok := tk_importer_init tk hs path in
  emit (EImporterInit imp path ios ok);; ret ok.

Definition Exporter_Initialize (exp : handle) (path : string) (ios : handle)
  : M bool :=
  hs <- history;
  let ok := tk_exporter_init tk hs path in
  emit (EExporterInit exp path ios ok);; ret ok.

Definition GetErrorString (h : handle) : M string :=
  hs <- history;
  let s := tk_error_string tk hs h in
  emit (EErrorString h s);; ret s.

Definition Import (imp scene : handle) : M bool :=
  hs <- history;
  let ok := tk_import tk hs in
  emit (EImport imp scene ok);; ret ok.

Definition Export (exp scene : handle) : M bool :=
  hs <- history;
  let ok := tk_export tk hs in
  emit (EExport exp scene ok);; ret ok.

Definition Destroy (h : handle) : M unit := emit (EDestroy h).

(** ** [main] *)

Definition usage_line (argv0 : string) : string :=
  ("Usage: " ++ argv0 ++ " <input.fbx> <output.fbx>")%string.

Definition manager_error_line : string := "Error: Unable to create FBX Manager!".
Definition importer_error_line : string := "Error: Unable to initialize FBX importer!".
Definition exporter_error_line : string := "Error: Unable to initialize FBX exporter!".
Definition error_returned_line (s : string) : string :=
  ("Error returned: " ++ s)%string.
Definition success_line (inputFile outputFile : string) : string :=
  ("FBX file upgraded successfully: " ++ inputFile ++ " -> " ++ outputFile)%string.

(** [argv] is the program name followed by the arguments; [argc] is its
    length.  The result is the exit code. *)
Definition main (argv : list string) : M Z :=
  let argc := length argv in
  if negb (Nat.eqb argc 3) then
    print (usage_line (nth 0 argv ""%string));; ret 1%Z
  else
  let inputFile := nth 1 argv ""%string in
  let outputFile := nth 2 argv ""%string in
  m <- FbxManager_Create;
  match m with
  | None => print manager_error_line;; ret 1%Z
  | Some sdkManager =>
    ios <- FbxObject_Create KIOSettings sdkManager;
    SetIOSettings sdkManager ios;;
    importer <- FbxObject_Create KImporter sdkManager;
    importStatus <- Importer_Initialize importer inputFile ios;
    if negb importStatus then
      print importer_error_line;;
      err <- GetErrorString importer;
      print (error_returned_line err);;
      ret 1%Z
    else
    scene <- FbxObject_Create KScene sdkManager;
    _ <- Import importer scene;
    Destroy importer;;
    exporter <- FbxObject_Create KExporter sdkManager;
    exportStatus <- Exporter_Initialize exporter outputFile ios;
    if negb exportStatus then
      print exporter_error_line;;
      err <- GetErrorString exporter;
      print (error_returned_line err);;
      ret 1%Z
    else
    _ <- Export exporter scene;
    Destroy exporter;;
    Destroy sdkManager;;
    print (success_line inputFile outputFile);;
    ret 0%Z
  end.

(** A whole run from process start: exit code and the calls made. *)
Definition run (argv : list string) : Z * list event :=
  let (code, w) := main argv init_world in (code, log w).

End Calls.

Arguments usage_line : simpl never.
Arguments error_returned_line : simpl never.
Arguments success_line : simpl never.
Arguments manager_error_line : simpl never.
Arguments importer_error_line : simpl never.
Arguments exporter_error_line : simpl never.

(** The exit code and the recorded calls of a run. *)
Definition exit_code (tk : toolkit) (argv : list string) : Z := fst (run tk argv).
Definition trace (tk : toolkit) (argv : list string) : list event :=
  snd (run tk argv).

(** The run reached the end of [main]: both initialisations succeeded and
    the scene was exported. *)
Definition success_path (argv : list string) (tr : list event) : Prop :=
  (exists imp ios, In (EImporterInit imp (nth 1 argv ""%string) ios true) tr) /\
  (exists exp ios, In (EExporterInit exp (nth 2 argv ""%string) ios true) tr) /\
  (exists exp sc ok, In (EExport exp sc ok) tr).

(** Whether an event involves the SDK object [h]. *)
Definition mentions (h : handle) (e : event) : bool :=
  match e with
  | EManagerCreate (Some m) => Nat.eqb m h
  | EManagerCreate None => false
  | ECreate _ x o => Nat.eqb x h || Nat.eqb o h
  | ESetIOSettings m i => Nat.eqb m h || Nat.eqb i h
  | EImporterInit x _ i _ | EExporterInit x _ i _ => Nat.eqb x h || Nat.eqb i h
  | EErrorString x _ => Nat.eqb x h
  | EImport a b _ | EExport a b _ => Nat.eqb a h || Nat.eqb b h
  | EDestroy x => Nat.eqb x h
  | EPrint _ => false
  end.

(** The filesystem path an event hands to the SDK, if any. *)
Definition event_path (e : event) : option string :=
  match e with
  | EImporterInit _ p _ _ | EExporterInit _ p _ _ => Some p
  | _ => None
  end.

(** A sample SDK answering every call the same way. *)
Definition tk_const (mgr imp exp : bool) : toolkit := {|
  tk_manager_ok _ := mgr;
  tk_importer_init _ _ := imp;
  tk_exporter_init _ _ := exp;
  tk_error_string _ _ := "File not found"%string;
  tk_import _ := true;
  tk_export _ := true
|}.

(** A sample SDK whose [Import] and [Export] calls report failure. *)
Definition tk_io_fails : toolkit := {|
  tk_manager_ok _ := true;
  tk_importer_init _ _ := true;
  tk_exporter_init _ _ := true;
  tk_error_string _ _ := ""%string;
  tk_import _ := false;
  tk_export _ := false
|}.

(** The SDK keeps what it exported readable: once a scene populated by a
    successful import has been exported successfully through an exporter
    initialised on [p], the importer accepts [p] from then on. *)
Definition toolkit_roundtrip (tk : toolkit) : Prop :=
  forall hist imp exp sc ios p,
    In (EImport imp sc true) hist ->
    In (EExporterInit exp p ios true) hist ->
    In (EExport exp sc true) hist ->
    forall ext, tk_importer_init tk (hist ++ ext) p = true.

(** Evaluating a run: split on the number of arguments and on the answers
    of the SDK, then compute. *)
Ltac split_oracles :=
  repeat (simpl; match goal with
  | |- context [tk_manager_ok ?t ?h] =>
      let E := fresh "E" in destruct (tk_manager_ok t h) eqn:E
  | |- context [tk_importer_init ?t ?h ?p] =>
      let E := fresh "E" in destruct (tk_importer_init t h p) eqn:E
  | |- context [tk_exporter_init ?t ?h ?p] =>
      let E := fresh "E" in destruct (tk_exporter_init t h p) eqn:E
  end); simpl.

Ltac eval_main :=
  cbv beta iota delta [exit_code trace run main bind ret emit alloc history
    print FbxManager_Create FbxObject_Create SetIOSettings Importer_Initialize
    Exporter_Initialize GetErrorString Import Export Destroy init_world];
  simpl; split_oracles.

Ltac eval_run argv :=
  destruct argv as [|? [|? [|? [|? ?]]]]; eval_main.

(** A goal [In e tr] over a computed trace, [e] possibly with holes. *)
Ltac find_event :=
  simpl; repeat (first [left; reflexivity | right]).

(** A hypothesis [In e tr] over a computed trace that no entry matches. *)
Ltac no_such_event H :=
  simpl in H; repeat (destruct H as [H|H]; [congruence|]); contradiction.

(** No call after [h->Destroy()] involves [h] again. *)
Fixpoint unused_after_destroy (tr : list event) : bool :=
  match tr with
  | [] => true
  | EDestroy h :: rest =>
      forallb (fun e => negb (mentions h e)) rest && unused_after_destroy rest
  | _ :: rest => unused_after_destroy rest
  end.


(** ** Claims *)

(** C1: the exit code is 0 exactly when both initialisations succeed and the
    scene is exported, and 1 on a wrong argument count, a failed importer
    initialisation and a failed exporter initialisation. *)
Theorem main_exit_code tk argv :
  (exit_code tk argv = 0%Z <-> success_path argv (trace tk argv)) /\
  (length argv <> 3 -> exit_code tk argv = 1%Z) /\
  ((exists imp p ios, In (EImporterInit imp p ios false) (trace tk argv)) ->
   exit_code tk argv = 1%Z) /\
  ((exists exp p ios, In (EExporterInit exp p ios false) (trace tk argv)) ->
   exit_code tk argv = 1%Z).
Proof.
  split; [|split; [|split]].
  - eval_run argv; unfold success_path; simpl;
      (split; [intro H; try discriminate |]).
    all: try (intros (_ & _ & (? & ? & ? & H)); no_such_event H).
    all: try (intros (_ & (? & ? & H) & _); no_such_event H).
    all: try (intros ((? & ? & H) & _ & _); no_such_event H).
    all: repeat split; repeat eexists; find_event.
  - intro Hlen; eval_run argv; try reflexivity; simpl in Hlen; lia.
  - intros (? & ? & ? & H); revert H; eval_run argv; intro H;
      try reflexivity; no_such_event H.
  - intros (? & ? & ? & H); revert H; eval_run argv; intro H;
      try reflexivity; no_such_event H.
Qed.

Lemma main_exit_code_check :
  exit_code (tk_const true true true) ["upgrade_fbx"; "in.fbx"; "out.fbx"]%string
    = 0%Z /\
  exit_code (tk_const true false true) ["upgrade_fbx"; "in.fbx"; "out.fbx"]%string
    = 1%Z.
Proof. split; reflexivity. Qed.

(** C2: with an argument count other than two the program prints the usage
    line, exits non-zero, and makes no SDK call at all. *)
Theorem wrong_argc_usage tk argv :
  length argv <> 3 ->
  exit_code tk argv <> 0%Z /\
  trace tk argv = [EPrint (usage_line (nth 0 argv ""%string))].
Proof.
  intro Hlen; eval_run argv; try (split; [discriminate | reflexivity]);
    simpl in Hlen; lia.
Qed.

Lemma wrong_argc_usage_witness :
  length ["upgrade_fbx"; "in.fbx"]%string <> 3 /\
  exit_code (tk_const true true true) ["upgrade_fbx"; "in.fbx"]%string <> 0%Z /\
  trace (tk_const true true true) ["upgrade_fbx"; "in.fbx"]%string
    = [EPrint (usage_line "upgrade_fbx")].
Proof.
  split; [simpl; lia | apply (wrong_argc_usage (tk_const true true true)); simpl; lia].
Defined.

(** C3: when importer initialisation fails, the program prints the SDK's
    error string, exits non-zero, exports nothing, never creates or
    initialises an exporter, and the only path it hands to the SDK is the
    source path argv[1]. *)
Theorem importer_init_failure tk argv imp p ios :
  In (EImporterInit imp p ios false) (trace tk argv) ->
  exit_code tk argv <> 0%Z /\
  (exists s, In (EErrorString imp s) (trace tk argv) /\
             In (EPrint (error_returned_line s)) (trace tk argv)) /\
  (forall exp sc ok, ~ In (EExport exp sc ok) (trace tk argv)) /\
  (forall exp owner, ~ In (ECreate KExporter exp owner) (trace tk argv)) /\
  (forall exp q ios' ok, ~ In (EExporterInit exp q ios' ok) (trace tk argv)) /\
  (forall e q, In e (trace tk argv) -> event_path e = Some q ->
               q = nth 1 argv ""%string).
Proof.
  intro H; revert H; eval_run argv; intro H; try no_such_event H.
  all: simpl in H; repeat (destruct H as [H|H]; [try congruence|]);
    try contradiction; injection H as <- <- <-.
  all: split; [discriminate|].
  all: split; [eexists; split; find_event|].
  all: split; [intros ? ? ? H'; no_such_event H'|].
  all: split; [intros ? ? H'; no_such_event H'|].
  all: split; [intros ? ? ? ? H'; no_such_event H'|].
  all: intros e q He Hp; simpl in He;
    repeat (destruct He as [He|He]; [subst e; simpl in Hp; congruence|]);
    contradiction.
Qed.

Lemma importer_init_failure_witness :
  In (EImporterInit 3 "missing.fbx" 2 false)
     (trace (tk_const true false true) ["upgrade_fbx"; "missing.fbx"; "out.fbx"]%string) /\
  exit_code (tk_const true false true) ["upgrade_fbx"; "missing.fbx"; "out.fbx"]%string
    <> 0%Z.
Proof.
  split; [find_event|].
  apply (importer_init_failure (tk_const true false true)
           ["upgrade_fbx"; "missing.fbx"; "out.fbx"]%string 3 "missing.fbx"%string 2).
  find_event.
Defined.

(** C4: when importer initialisation succeeds but exporter initialisation
    fails, the program prints the SDK's error string and exits non-zero; the
    importer has been destroyed, but neither the scene nor the manager is. *)
Theorem exporter_init_failure tk argv exp p ios :
  In (EExporterInit exp p ios false) (trace tk argv) ->
  exit_code tk argv <> 0%Z /\
  (exists s, In (EErrorString exp s) (trace tk argv) /\
             In (EPrint (error_returned_line s)) (trace tk argv)) /\
  (exists mgr imp sc ok,
     In (EManagerCreate (Some mgr)) (trace tk argv) /\
     In (ECreate KImporter imp mgr) (trace tk argv) /\
     In (ECreate KScene sc mgr) (trace tk argv) /\
     In (EImport imp sc ok) (trace tk argv) /\
     In (EDestroy imp) (trace tk argv) /\
     ~ In (EDestroy sc) (trace tk argv) /\
     ~ In (EDestroy mgr) (trace tk argv)).
Proof.
  intro H; revert H; eval_run argv; intro H; try no_such_event H.
  all: simpl in H; repeat (destruct H as [H|H]; [try congruence|]);
    try contradiction; injection H as <- <- <-.
  all: split; [discriminate|].
  all: split; [eexists; split; find_event|].
  all: exists 1, 3, 4; eexists; repeat split; try find_event;
    intro H'; no_such_event H'.
Qed.

Lemma exporter_init_failure_witness :
  In (EExporterInit 5 "/readonly/out.fbx" 2 false)
     (trace (tk_const true true false)
        ["upgrade_fbx"; "in.fbx"; "/readonly/out.fbx"]%string) /\
  exit_code (tk_const true true false)
    ["upgrade_fbx"; "in.fbx"; "/readonly/out.fbx"]%string <> 0%Z.
Proof.
  split; [find_event|].
  apply (exporter_init_failure (tk_const true true false)
           ["upgrade_fbx"; "in.fbx"; "/readonly/out.fbx"]%string 5
           "/readonly/out.fbx"%string 2).
  find_event.
Defined.

(** C5: on a successful run the scene handed to [Export] is the scene created
    by [FbxScene::Create] and populated by the importer's [Import]; between
    the [Import] and the [Export] no call involves that scene. *)
Theorem exported_scene_is_imported_scene tk argv :
  exit_code tk argv = 0%Z ->
  forall exp sc ok, In (EExport exp sc ok) (trace tk argv) ->
  exists pre imp ok' mid post,
    trace tk argv = pre ++ EImport imp sc ok' :: mid ++ EExport exp sc ok :: post /\
    (exists mgr, In (ECreate KScene sc mgr) pre) /\
    forallb (fun e => negb (mentions sc e)) mid = true.
Proof.
  intros H0 exp sc ok H; revert H0 H; eval_run argv; intros H0 H;
    try discriminate; try no_such_event H.
  simpl in H; repeat (destruct H as [H|H]; [try congruence|]);
    try contradiction; injection H as <- <- <-.
  refine (ex_intro _ [_;_;_;_;_;_] _); do 2 eexists;
    refine (ex_intro _ [_;_;_] _); eexists.
  split; [reflexivity|]; split; [eexists; find_event | reflexivity].
Qed.

Lemma exported_scene_is_imported_scene_witness :
  exit_code (tk_const true true true) ["upgrade_fbx"; "in.fbx"; "out.fbx"]%string
    = 0%Z /\
  exists pre imp ok' mid post,
    trace (tk_const true true true) ["upgrade_fbx"; "in.fbx"; "out.fbx"]%string
      = pre ++ EImport imp 4 ok' :: mid ++ EExport 5 4 true :: post /\
    (exists mgr, In (ECreate KScene 4 mgr) pre) /\
    forallb (fun e => negb (mentions 4 e)) mid = true.
Proof.
  split; [reflexivity|].
  apply (exported_scene_is_imported_scene (tk_const true true true)
           ["upgrade_fbx"; "in.fbx"; "out.fbx"]%string); [reflexivity | find_event].
Defined.

(** C6 (at a concrete input): when importer initialisation fails, the program
    returns without destroying the importer or the manager it created. *)
Theorem importer_failure_leaves_objects_alive :
  let tr := trace (tk_const true false true)
              ["upgrade_fbx"; "missing.fbx"; "out.fbx"]%string in
  exit_code (tk_const true false true)
    ["upgrade_fbx"; "missing.fbx"; "out.fbx"]%string = 1%Z /\
  In (EManagerCreate (Some 1)) tr /\ In (ECreate KImporter 3 1) tr /\
  ~ In (EDestroy 1) tr /\ ~ In (EDestroy 3) tr /\
  forall h, ~ In (EDestroy h) tr.
Proof.
  simpl; split; [reflexivity|]; split; [find_event|]; split; [find_event|].
  split; [intro H; no_such_event H|]; split; [intro H; no_such_event H|].
  intros h H; no_such_event H.
Qed.

(** C7: the two arguments reach the SDK unmodified: every importer
    initialisation gets argv[1], every exporter initialisation argv[2], and a
    successful run prints both verbatim on its success line. *)
Theorem paths_passed_unmodified tk prog src dst :
  let tr := trace tk [prog; src; dst] in
  (forall h p ios ok, In (EImporterInit h p ios ok) tr -> p = src) /\
  (forall h p ios ok, In (EExporterInit h p ios ok) tr -> p = dst) /\
  (exit_code tk [prog; src; dst] = 0%Z ->
   In (EPrint ("FBX file upgraded successfully: " ++ src ++ " -> " ++ dst)%string) tr).
Proof.
  cbv zeta; split; [|split].
  - intros h p ios ok H; revert H; eval_main; intro H;
      simpl in H; repeat (destruct H as [H|H]; [try congruence|]); contradiction.
  - intros h p ios ok H; revert H; eval_main; intro H;
      simpl in H; repeat (destruct H as [H|H]; [try congruence|]); contradiction.
  - eval_main; intro H0; try discriminate; find_event.
Qed.

(** C8: the only paths the program hands to the SDK (the initialisations of
    the importer and of the exporter) are argv[1] and argv[2]. *)
Theorem only_argument_paths tk argv :
  Forall (fun e => match event_path e with
                   | Some p => p = nth 1 argv ""%string \/ p = nth 2 argv ""%string
                   | None => True
                   end) (trace tk argv).
Proof.
  eval_run argv; repeat apply Forall_cons; try apply Forall_nil; simpl; auto.
Qed.

(** C9, as stated, fails: even with a readable source, a writable
    destination and an SDK that keeps its output readable, the run exits 1
    when the SDK manager cannot be created. *)
Lemma upgrade_without_manager_counterexample :
  toolkit_roundtrip (tk_const false true true) /\
  (forall h, tk_importer_init (tk_const false true true) h "in.fbx" = true) /\
  (forall h, tk_import (tk_const false true true) h = true) /\
  (forall h, tk_exporter_init (tk_const false true true) h "out.fbx" = true) /\
  (forall h, tk_export (tk_const false true true) h = true) /\
  exit_code (tk_const false true true) ["upgrade_fbx"; "in.fbx"; "out.fbx"]%string
    = 1%Z.
Proof.
  split; [intros ? ? ? ? ? ? _ _ _ ?; reflexivity|].
  repeat split.
Qed.

(** C9 (amended): when the SDK manager can be created, the SDK opens and
    imports the source, opens and writes the destination, and keeps what it
    writes readable ([toolkit_roundtrip]), the program exits 0, prints the
    success line, and the SDK then accepts the destination for import. *)
Theorem upgrade_roundtrip tk prog src dst :
  toolkit_roundtrip tk ->
  (forall h, tk_manager_ok tk h = true) ->
  (forall h, tk_importer_init tk h src = true) ->
  (forall h, tk_import tk h = true) ->
  (forall h, tk_exporter_init tk h dst = true) ->
  (forall h, tk_export tk h = true) ->
  exit_code tk [prog; src; dst] = 0%Z /\
  In (EPrint (success_line src dst)) (trace tk [prog; src; dst]) /\
  forall ext, tk_importer_init tk (trace tk [prog; src; dst] ++ ext) dst = true.
Proof.
  intros Hrt Hm Hi Himp He Hexp.
  assert (Hrun : exit_code tk [prog; src; dst] = 0%Z /\
                 In (EImport 3 4 true) (trace tk [prog; src; dst]) /\
                 In (EExporterInit 5 dst 2 true) (trace tk [prog; src; dst]) /\
                 In (EExport 5 4 true) (trace tk [prog; src; dst]) /\
                 In (EPrint (success_line src dst)) (trace tk [prog; src; dst])).
  { eval_main; rewrite ?Hm, ?Hi, ?He in *; try congruence;
      rewrite ?Himp, ?Hexp; repeat split; find_event. }
  destruct Hrun as (H0 & HI & HE & HX & HP).
  repeat split; auto.
  intro ext; exact (Hrt _ 3 5 4 2 dst HI HE HX ext).
Qed.

Lemma upgrade_roundtrip_witness :
  exit_code (tk_const true true true) ["upgrade_fbx"; "in.fbx"; "out.fbx"]%string
    = 0%Z /\
  In (EPrint (success_line "in.fbx" "out.fbx"))
     (trace (tk_const true true true) ["upgrade_fbx"; "in.fbx"; "out.fbx"]%string) /\
  forall ext, tk_importer_init (tk_const true true true)
    (trace (tk_const true true true) ["upgrade_fbx"; "in.fbx"; "out.fbx"]%string ++ ext)
    "out.fbx" = true.
Proof.
  apply upgrade_roundtrip; try (intros; reflexivity).
  intros ? ? ? ? ? ? _ _ _ ?; reflexivity.
Defined.

(** C10: when [FbxManager::Create] returns null, the program prints the fixed
    message and exits 1; no other SDK object is created and no path is
    handed to the SDK. *)
Theorem manager_create_failure tk argv :
  In (EManagerCreate None) (trace tk argv) ->
  exit_code tk argv = 1%Z /\
  trace tk argv =
    [EManagerCreate None; EPrint "Error: Unable to create FBX Manager!"%string].
Proof.
  intro H; revert H; eval_run argv; intro H; try no_such_event H.
  split; reflexivity.
Qed.

Lemma manager_create_failure_witness :
  In (EManagerCreate None)
     (trace (tk_const false true true) ["upgrade_fbx"; "in.fbx"; "out.fbx"]%string) /\
  exit_code (tk_const false true true) ["upgrade_fbx"; "in.fbx"; "out.fbx"]%string
    = 1%Z.
Proof.
  split; [find_event|].
  apply (manager_create_failure (tk_const false true true)
           ["upgrade_fbx"; "in.fbx"; "out.fbx"]%string).
  find_event.
Defined.

(** ** Further properties of [main] *)

Lemma unused_after_destroy_spec tr :
  unused_after_destroy tr = true ->
  forall pre h post, tr = pre ++ EDestroy h :: post ->
  forallb (fun e => negb (mentions h e)) post = true.
Proof.
  intros Hu pre; revert tr Hu; induction pre as [|e pre IH]; intros tr Hu h post Htr;
    subst tr; simpl in Hu.
  - apply andb_prop in Hu; tauto.
  - destruct e; try (apply andb_prop in Hu; destruct Hu as [_ Hu]);
      exact (IH _ Hu h post eq_refl).
Qed.


(** X2: the results of [Import] and [Export] are discarded: once the manager
    is created and both initialisations succeed, the run exports and exits 0
    whatever [Import] and [Export] report. *)
Theorem import_export_results_ignored tk prog src dst :
  (forall h, tk_manager_ok tk h = true) ->
  (forall h, tk_importer_init tk h src = true) ->
  (forall h, tk_exporter_init tk h dst = true) ->
  exit_code tk [prog; src; dst] = 0%Z /\
  (exists exp sc ok, In (EExport exp sc ok) (trace tk [prog; src; dst])) /\
  In (EPrint (success_line src dst)) (trace tk [prog; src; dst]).
Proof.
  intros Hm Hi He; eval_main; rewrite ?Hm, ?Hi, ?He in *; try congruence.
  split; [reflexivity|]; split; [do 3 eexists|]; find_event.
Qed.

Lemma import_export_results_ignored_witness :
  exit_code tk_io_fails ["upgrade_fbx"; "in.fbx"; "out.fbx"]%string = 0%Z /\
  (exists exp sc ok,
     In (EExport exp sc ok) (trace tk_io_fails ["upgrade_fbx"; "in.fbx"; "out.fbx"]%string)) /\
  In (EPrint (success_line "in.fbx" "out.fbx"))
     (trace tk_io_fails ["upgrade_fbx"; "in.fbx"; "out.fbx"]%string).
Proof.
  apply (import_export_results_ignored tk_io_fails); intro; reflexivity.
Defined.

(** X3: no object is used after its [Destroy()] call, and none is destroyed
    twice. *)
Theorem no_use_after_destroy tk argv pre h post :
  trace tk argv = pre ++ EDestroy h :: post ->
  forallb (fun e => negb (mentions h e)) post = true.
Proof.
  apply unused_after_destroy_spec.
  eval_run argv; reflexivity.
Qed.

Lemma no_use_after_destroy_witness :
  trace (tk_const true true true) ["upgrade_fbx"; "in.fbx"; "out.fbx"]%string =
    firstn 7 (trace (tk_const true true true) ["upgrade_fbx"; "in.fbx"; "out.fbx"]%string)
    ++ EDestroy 3 ::
    skipn 8 (trace (tk_const true true true) ["upgrade_fbx"; "in.fbx"; "out.fbx"]%string) /\
  forallb (fun e => negb (mentions 3 e))
    (skipn 8 (trace (tk_const true true true) ["upgrade_fbx"; "in.fbx"; "out.fbx"]%string))
    = true.
Proof.
  split; [vm_compute; reflexivity|].
  apply (no_use_after_destroy (tk_const true true true)
           ["upgrade_fbx"; "in.fbx"; "out.fbx"]%string
           (firstn 7 (trace (tk_const true true true)
                        ["upgrade_fbx"; "in.fbx"; "out.fbx"]%string))).
  vm_compute; reflexivity.
Defined.

(** X4: the exporter is created only after the scene has been imported and
    the importer destroyed, so importer and exporter are never alive together. *)
Theorem exporter_created_after_importer_destroyed tk argv exp m :
  In (ECreate KExporter exp m) (trace tk argv) ->
  exists pre post imp sc ok,
    trace tk argv = pre ++ ECreate KExporter exp m :: post /\
    In (ECreate KImporter imp m) pre /\
    In (EImport imp sc ok) pre /\
    In (EDestroy imp) pre.
Proof.
  intro H; revert H; eval_run argv; intro H; try no_such_event H.
  all: simpl in H; repeat (destruct H as [H|H]; [try congruence|]);
    try contradiction; injection H as <- <-.
  all: refine (ex_intro _ [_;_;_;_;_;_;_;_] _); do 4 eexists;
    split; [reflexivity|]; split; [|split]; solve [find_event].
Qed.

Lemma exporter_created_after_importer_destroyed_witness :
  In (ECreate KExporter 5 1)
     (trace (tk_const true true true) ["upgrade_fbx"; "in.fbx"; "out.fbx"]%string) /\
  exists pre post imp sc ok,
    trace (tk_const true true true) ["upgrade_fbx"; "in.fbx"; "out.fbx"]%string
      = pre ++ ECreate KExporter 5 1 :: post /\
    In (ECreate KImporter imp 1) pre /\ In (EImport imp sc ok) pre /\
    In (EDestroy imp) pre.
Proof.
  split; [find_event|].
  apply (exporter_created_after_importer_destroyed (tk_const true true true)).
  find_event.
Defined.

(** X5: [Destroy()] is only ever called on the manager, the importer or the
    exporter created in the run; the scene and the IO settings object never
    get a [Destroy()] call of their own, on any path. *)
Theorem destroy_targets tk argv :
  Forall (fun e => match e with
                   | EDestroy h =>
                       In (EManagerCreate (Some h)) (trace tk argv) \/
                       exists m, In (ECreate KImporter h m) (trace tk argv) \/
                                 In (ECreate KExporter h m) (trace tk argv)
                   | ECreate KScene h _ | ECreate KIOSettings h _ =>
                       ~ In (EDestroy h) (trace tk argv)
                   | _ => True
                   end) (trace tk argv).
Proof.
  eval_run argv; repeat apply Forall_cons; try apply Forall_nil; simpl;
    first [ exact I
          | intro H'; no_such_event H'
          | left; solve [find_event]
          | right; exists 1; left; solve [find_event]
          | right; exists 1; right; solve [find_event] ].
Qed.

(** X6: a successful run ends by destroying the manager and printing the
    success line; the importer and the exporter were destroyed before. *)
Theorem success_ends_with_manager_destroy tk argv :
  exit_code tk argv = 0%Z ->
  exists pre m imp exp,
    trace tk argv =
      pre ++ [EDestroy m; EPrint (success_line (nth 1 argv ""%string) (nth 2 argv ""%string))] /\
    In (EManagerCreate (Some m)) pre /\
    In (ECreate KImporter imp m) pre /\ In (EDestroy imp) pre /\
    In (ECreate KExporter exp m) pre /\ In (EDestroy exp) pre.
Proof.
  intro H0; revert H0; eval_run argv; intro H0; try discriminate.
  refine (ex_intro _ [_;_;_;_;_;_;_;_;_;_;_;_] _); do 3 eexists.
  split; [reflexivity|]; repeat split; solve [find_event].
Qed.

Lemma success_ends_with_manager_destroy_witness :
  exit_code (tk_const true true true) ["upgrade_fbx"; "in.fbx"; "out.fbx"]%string
    = 0%Z /\
  exists pre m imp exp,
    trace (tk_const true true true) ["upgrade_fbx"; "in.fbx"; "out.fbx"]%string =
      pre ++ [EDestroy m; EPrint (success_line "in.fbx" "out.fbx")] /\
    In (EManagerCreate (Some m)) pre /\
    In (ECreate KImporter imp m) pre /\ In (EDestroy imp) pre /\
    In (ECreate KExporter exp m) pre /\ In (EDestroy exp) pre.
Proof.
  split; [reflexivity|].
  apply (success_ends_with_manager_destroy (tk_const true true true)
           ["upgrade_fbx"; "in.fbx"; "out.fbx"]%string).
  reflexivity.
Defined.

